(** * trumail verifier: a shallow embedding of [verifier/verifier.go]

    The three entry points of the package, [VerifyAddress], [VerifyEmail]
    and [VerifyAddressTimeout], are embedded as programs of a small monad
    that threads the outside world (DNS, the SMTP peer, the HTTP services),
    a heap holding the [Lookup] objects that Go allocates with [&Lookup{..}],
    and the list of calls made to the collaborators.  Everything the file
    calls but does not define (the SMTP session, the error classifiers, the
    address parser, the message constants) is a field of a type class, so
    every theorem holds for all of their behaviours. *)

From Stdlib Require Import ZArith Ascii String.
From stdpp Require Import base option list strings.

Set Default Proof Using "Type".
Open Scope Z_scope.

(** ** Go values *)

(** [xml.Name] of encoding/xml. *)
Module xml.
Record Name := { Space : string; Local : string }.
Definition zero : Name := {| Space := EmptyString; Local := EmptyString |}.
End xml.

(** Modelled from the spec: the struct [Address] is declared outside
    verifier.go; section 3 of the specification gives it a local part, a
    domain and the full normalised string.  verifier.go reads the fields
    [Domain] and [Address] (the latter is [Address'] here, the type has
    taken the name). *)
Record Address := {
  Username : string;
  Domain : string;
  Address' : string;
}.

(** [type Lookup struct], the embedded [Address] under [Lookup_Address]. *)
Record Lookup := {
  XMLName : xml.Name;
  Lookup_Address : Address;
  Deliverable : bool;
  FullInbox : bool;
  HostExists : bool;
  CatchAll : bool;
  Disposable : bool;
  Gravatar : bool;
}.

(** Field assignments [l.F = b]. *)
Definition set_Deliverable (b : bool) (l : Lookup) : Lookup :=
  {| XMLName := XMLName l; Lookup_Address := Lookup_Address l;
     Deliverable := b; FullInbox := FullInbox l; HostExists := HostExists l;
     CatchAll := CatchAll l; Disposable := Disposable l; Gravatar := Gravatar l |}.

Definition set_FullInbox (b : bool) (l : Lookup) : Lookup :=
  {| XMLName := XMLName l; Lookup_Address := Lookup_Address l;
     Deliverable := Deliverable l; FullInbox := b; HostExists := HostExists l;
     CatchAll := CatchAll l; Disposable := Disposable l; Gravatar := Gravatar l |}.

Definition set_HostExists (b : bool) (l : Lookup) : Lookup :=
  {| XMLName := XMLName l; Lookup_Address := Lookup_Address l;
     Deliverable := Deliverable l; FullInbox := FullInbox l; HostExists := b;
     CatchAll := CatchAll l; Disposable := Disposable l; Gravatar := Gravatar l |}.

Definition set_CatchAll (b : bool) (l : Lookup) : Lookup :=
  {| XMLName := XMLName l; Lookup_Address := Lookup_Address l;
     Deliverable := Deliverable l; FullInbox := FullInbox l; HostExists := HostExists l;
     CatchAll := b; Disposable := Disposable l; Gravatar := Gravatar l |}.

(** A [*Lookup]: [None] is nil, [Some p] points at cell [p] of the heap. *)
Definition loc := nat.
Definition LookupPtr := option loc.

(** The types of the values verifier.go only passes around. *)
Class Handles := {
  World : Type;          (* the network and the remote servers *)
  HttpClient : Type;     (* *httpclient.Client *)
  Disposabler : Type;    (* *Disposabler *)
  Deliverabler : Type;   (* *Deliverabler, one open SMTP session *)
  LookupError : Type;    (* the struct behind *LookupError *)
  ForeignError : Type;   (* error values of net, textproto, ... *)
}.

Section GoValues.
Context `{Handles}.

(** A non-nil value of the interface [error]: its dynamic type is either
    [*LookupError] (the pointer itself may be nil) or a type of another
    package. *)
Inductive dyn_error :=
| DynLookupError (p : option LookupError)
| DynForeign (e : ForeignError).

(** The interface [error]; [None] is the nil interface. *)
Definition error := option dyn_error.

(** A non-nil value of [interface{}] as it travels through the channel of
    [VerifyAddressTimeout]. *)
Inductive dyn :=
| DynLookup (p : LookupPtr)
| DynError (e : dyn_error)
| DynOther (tag : string).

Definition iface := option dyn.

(** Conversion of an [error] to [interface{}] keeps the dynamic value. *)
Definition error_to_iface (e : error) : iface := DynError <$> e.

(** [type Verifier struct]. *)
Record Verifier := {
  client : HttpClient;
  hostname : string;
  sourceAddr : string;
  disp : Disposabler;
}.

(** The pair of a [*Lookup] and an [error] the three entry points return. *)
Definition result := (LookupPtr * error)%type.

(** One call to a collaborator, with what it returned. *)
Inductive Event :=
| EvIsDisposable (domain : string) (r : bool)
| EvHasGravatar (a : Address) (r : bool)
| EvNewDeliverabler (domain hostname sourceAddr : string)
                    (r : Deliverabler + dyn_error)
| EvHasCatchAll (del : Deliverabler) (retries : Z) (r : bool)
| EvIsDeliverable (del : Deliverabler) (address : string) (retries : Z)
                  (r : error)
| EvClose (del : Deliverabler).

Definition is_IsDeliverable (e : Event) : bool :=
  match e with EvIsDeliverable _ _ _ _ => true | _ => false end.

Definition is_HasCatchAll (e : Event) : bool :=
  match e with EvHasCatchAll _ _ _ => true | _ => false end.

Definition is_Close (e : Event) : bool :=
  match e with EvClose _ => true | _ => false end.

Definition is_NewDeliverabler (e : Event) : bool :=
  match e with EvNewDeliverabler _ _ _ _ => true | _ => false end.
End GoValues.

(** ** What verifier.go calls but does not define

    Functions that touch the network take the [World] and give it back.
    [NewDeliverabler] returns [(del, err)] with exactly one of the two
    meaningful, hence the sum; so does [ParseAddress].  Both classifiers
    return a [*LookupError] that may be nil: verifier.go tests
    [le != nil] before it reads [le.Message]. *)
Class Collaborators `{Handles} := {
  Message : LookupError → string;
  newLookupError : string → string → option LookupError;
  ErrTimeout : string;
  ErrNoSuchHost : string;
  ErrFullInbox : string;
  ErrUnexpectedResponse : string;
  ErrEmailParseFailure : string;
  parseRCPTErr : error → option LookupError;
  parseSTDErr : error → option LookupError;
  ParseAddress : string → Address + dyn_error;
  IsDisposable : Disposabler → string → World → bool * World;
  HasGravatar : Verifier → Address → World → bool * World;
  NewDeliverabler :
    string → string → string → World → (Deliverabler + dyn_error) * World;
  HasCatchAll : Deliverabler → Z → World → bool * World;
  IsDeliverable : Deliverabler → string → Z → World → error * World;
  Close : Deliverabler → World → World;
}.

(** ** The monad of the embedding *)

Section Embedding.
Context `{Collaborators}.

(** The state a program runs in: the world outside and the [Lookup] cells
    allocated so far. *)
Record State := { world : World; heap : list Lookup }.

(** The outcome of a run: the value ([None] when the run panicked on a nil
    or dangling [*Lookup]), the state reached, the calls made in order. *)
Record Out (A : Type) := { val : option A; st : State; evs : list Event }.
Arguments val {A} _.
Arguments st {A} _.
Arguments evs {A} _.

Definition M (A : Type) : Type := State → Out A.

Definition ret {A} (a : A) : M A :=
  λ s, {| val := Some a; st := s; evs := [] |}.

Definition bind {A B} (m : M A) (k : A → M B) : M B :=
  λ s,
    let o := m s in
    match val o with
    | None => {| val := None; st := st o; evs := evs o |}
    | Some a =>
        let o' := k a (st o) in
        {| val := val o'; st := st o'; evs := evs o ++ evs o' |}
    end.

#[export] Instance M_ret : MRet M := @ret.
#[export] Instance M_bind : MBind M := λ A B k m, bind m k.

(** A call into the world, logged with its answer. *)
Definition call {A} (f : World → A * World) (ev : A → Event) : M A :=
  λ s,
    let r := f (world s) in
    {| val := Some r.1;
       st := {| world := r.2; heap := heap s |};
       evs := [ev r.1] |}.

(** [&Lookup{..}]: a fresh cell at the end of the heap. *)
Definition alloc (l : Lookup) : M loc :=
  λ s,
    {| val := Some (length (heap s));
       st := {| world := world s; heap := heap s ++ [l] |};
       evs := [] |}.

(** Reading through a [*Lookup]. *)
Definition load (p : loc) : M Lookup :=
  λ s, {| val := heap s !! p; st := s; evs := [] |}.

(** Assigning a field through a [*Lookup]. *)
Definition store (p : loc) (f : Lookup → Lookup) : M unit :=
  λ s,
    match heap s !! p with
    | None => {| val := None; st := s; evs := [] |}
    | Some l =>
        {| val := Some ();
           st := {| world := world s; heap := <[p := f l]> (heap s) |};
           evs := [] |}
    end.

(** [defer d; body]: [d] runs when [body] is over, whatever its outcome,
    and the function returns what [body] returned. *)
Definition defer {A} (d : M unit) (body : M A) : M A :=
  λ s,
    let o := body s in
    let o' := d (st o) in
    {| val := match val o' with Some _ => val o | None => None end;
       st := st o';
       evs := evs o ++ evs o' |}.

(** ** verifier.go *)

(** Lines 107-128 of [VerifyAddress]: what runs between [defer del.Close()]
    and the return, [l] being the [*Lookup] built at lines 87-92. *)
Definition VerifyAddress_probe
    (del : Deliverabler) (address : Address) (l : loc) : M result :=
  catchAll ← call (HasCatchAll del 3) (EvHasCatchAll del 3);
  (if catchAll : bool
   then store l (set_CatchAll true);; store l (set_Deliverable true)
   else mret ());;
  cur ← load l;
  if negb (CatchAll cur) then
    err ← call (IsDeliverable del (Address' address) 3)
               (EvIsDeliverable del (Address' address) 3);
    match err with
    | Some e =>
        match parseRCPTErr (Some e) with
        | Some le =>
            if decide (Message le = ErrFullInbox)
            then store l (set_FullInbox true);; mret (Some l, None)
            else mret (None, Some (DynLookupError (Some le)))
        | None => mret (Some l, None)
        end
    | None => store l (set_Deliverable true);; mret (Some l, None)
    end
  else mret (Some l, None).

(** [func (v *Verifier) VerifyAddress(address *Address)], lines 84-129. *)
Definition VerifyAddress (v : Verifier) (address : Address) : M result :=
  disposable ← call (IsDisposable (disp v) (Domain address))
                    (EvIsDisposable (Domain address));
  gravatar ← call (HasGravatar v address) (EvHasGravatar address);
  l ← alloc {| XMLName := xml.zero; Lookup_Address := address;
               Deliverable := false; FullInbox := false; HostExists := true;
               CatchAll := false; Disposable := disposable;
               Gravatar := gravatar |};
  opened ← call (NewDeliverabler (Domain address) (hostname v) (sourceAddr v))
                (EvNewDeliverabler (Domain address) (hostname v) (sourceAddr v));
  match opened with
  | inr err =>
      match parseRCPTErr (Some err) with
      | Some le =>
          if decide (Message le = ErrNoSuchHost)
          then store l (set_HostExists false)
          else mret ()
      | None => mret ()
      end;;
      mret (None, Some (DynLookupError (parseSTDErr (Some err))))
  | inl del =>
      defer (call (λ w, ((), Close del w)) (λ _, EvClose del))
            (VerifyAddress_probe del address l)
  end.

(** [func (v *Verifier) VerifyEmail(email string)], lines 71-80. *)
Definition VerifyEmail (v : Verifier) (email : string) : M result :=
  match ParseAddress email with
  | inr _ =>
      mret (None, Some (DynLookupError
                          (newLookupError ErrEmailParseFailure
                                          ErrEmailParseFailure)))
  | inl a => VerifyAddress v a
  end.

(** The goroutine of lines 44-51.  [ch] is created empty with room for one
    value, so the send never blocks; the value of the program is what the
    channel holds once the goroutine is over. *)
Definition worker (v : Verifier) (address : Address) : M (list iface) :=
  r ← VerifyAddress v address;
  let ch := [] in
  match r.2 with
  | Some err => mret (ch ++ [error_to_iface (Some err)])
  | None => mret (ch ++ [Some (DynLookup r.1)])
  end.

(** Which case of the [select] of line 54 is taken.  The clock and the
    scheduler decide, so it is an input of the model. *)
Inductive SelectCase := RecvCh | RecvAfter.

(** The arms of the type switch of line 56. *)
Inductive SwitchArm :=
| ArmLookup (r : LookupPtr)
| ArmError (r : dyn_error)
| ArmDefault.

Definition type_switch (res : iface) : SwitchArm :=
  match res with
  | Some (DynLookup r) => ArmLookup r
  | Some (DynError r) => ArmError r
  | Some (DynOther _) | None => ArmDefault
  end.

Definition ErrTimeout_result : result :=
  (None, Some (DynLookupError (newLookupError ErrTimeout ErrTimeout))).

Definition ErrUnexpectedResponse_result : result :=
  (None, Some (DynLookupError
                 (newLookupError ErrUnexpectedResponse ErrUnexpectedResponse))).

(** [func (v *Verifier) VerifyAddressTimeout(address *Address, timeout
    time.Duration)], lines 40-67.  With [RecvCh] the goroutine has sent its
    value before the timer fired and the caller receives it.  With
    [RecvAfter] the timer fired first: the caller returns at once, and what
    the abandoned goroutine goes on doing is not part of the caller's run.
    A receive from a channel that holds nothing cannot be chosen, so only
    the timer is left then. *)
Definition VerifyAddressTimeout
    (v : Verifier) (address : Address) (timeout : Z) (sel : SelectCase)
    : M result :=
  match sel with
  | RecvCh =>
      ch ← worker v address;
      match ch with
      | res :: _ =>
          match type_switch res with
          | ArmLookup r => mret (r, None)
          | ArmError r => mret (None, Some r)
          | ArmDefault => mret ErrUnexpectedResponse_result
          end
      | [] => mret ErrTimeout_result
      end
  | RecvAfter => mret ErrTimeout_result
  end.

(** The [Lookup] a returned pointer refers to, in the state of the outcome. *)
Definition returned_Lookup (o : Out result) : option Lookup :=
  match val o with
  | Some (Some p, _) => heap (st o) !! p
  | _ => None
  end.

(** The invariants of a verdict (section 3 of the specification). *)
Definition verdict_invariants (l : Lookup) : Prop :=
  (HostExists l = false →
     Deliverable l = false ∧ CatchAll l = false ∧ FullInbox l = false)
  ∧ (CatchAll l = true → Deliverable l = true)
  ∧ (FullInbox l = true → Deliverable l = false ∧ CatchAll l = false).

(** ** The runs in closed form

    The cell [l] is the last one of the heap for the whole of
    [VerifyAddress], so a run is described by the pair returned, the final
    content of that cell, the world reached and the calls made.  The two
    [_run] lemmas below show that the programs above compute exactly this. *)
Record Run := {
  run_result : result;
  run_cell : Lookup;
  run_world : World;
  run_events : list Event;
}.

Definition Out_of_Run (h : list Lookup) (r : Run) : Out result :=
  {| val := Some (run_result r);
     st := {| world := run_world r; heap := h ++ [run_cell r] |};
     evs := run_events r |}.

Definition probe_Run
    (del : Deliverabler) (address : Address) (l : loc) (x : Lookup)
    (w : World) : Run :=
  let c := HasCatchAll del 3 w in
  let x1 := if c.1 then set_Deliverable true (set_CatchAll true x) else x in
  if negb (CatchAll x1) then
    let d := IsDeliverable del (Address' address) 3 c.2 in
    let es := [EvHasCatchAll del 3 c.1;
               EvIsDeliverable del (Address' address) 3 d.1] in
    match d.1 with
    | Some e =>
        match parseRCPTErr (Some e) with
        | Some le =>
            if decide (Message le = ErrFullInbox)
            then {| run_result := (Some l, None);
                    run_cell := set_FullInbox true x1;
                    run_world := d.2; run_events := es |}
            else {| run_result := (None, Some (DynLookupError (Some le)));
                    run_cell := x1; run_world := d.2; run_events := es |}
        | None => {| run_result := (Some l, None); run_cell := x1;
                     run_world := d.2; run_events := es |}
        end
    | None => {| run_result := (Some l, None);
                 run_cell := set_Deliverable true x1;
                 run_world := d.2; run_events := es |}
    end
  else {| run_result := (Some l, None); run_cell := x1; run_world := c.2;
          run_events := [EvHasCatchAll del 3 c.1] |}.

(** The [Lookup] of lines 87-92. *)
Definition initial_Lookup (address : Address) (disposable gravatar : bool)
    : Lookup :=
  {| XMLName := xml.zero; Lookup_Address := address;
     Deliverable := false; FullInbox := false; HostExists := true;
     CatchAll := false; Disposable := disposable; Gravatar := gravatar |}.

Definition VerifyAddress_Run
    (v : Verifier) (address : Address) (l : loc) (w : World) : Run :=
  let i := IsDisposable (disp v) (Domain address) w in
  let g := HasGravatar v address i.2 in
  let x := initial_Lookup address i.1 g.1 in
  let o := NewDeliverabler (Domain address) (hostname v) (sourceAddr v) g.2 in
  let es := [EvIsDisposable (Domain address) i.1;
             EvHasGravatar address g.1;
             EvNewDeliverabler (Domain address) (hostname v) (sourceAddr v)
                               o.1] in
  match o.1 with
  | inr err =>
      {| run_result := (None, Some (DynLookupError (parseSTDErr (Some err))));
         run_cell :=
           match parseRCPTErr (Some err) with
           | Some le =>
               if decide (Message le = ErrNoSuchHost)
               then set_HostExists false x else x
           | None => x
           end;
         run_world := o.2;
         run_events := es |}
  | inl del =>
      let p := probe_Run del address l x o.2 in
      {| run_result := run_result p;
         run_cell := run_cell p;
         run_world := Close del (run_world p);
         run_events := es ++ run_events p ++ [EvClose del] |}
  end.

(** The cell a run of [VerifyAddress] started in [s] allocates at lines
    87-92, as it stands in the outcome [o], returned or not. *)
Definition built_Lookup (s : State) (o : Out result) : option Lookup :=
  heap (st o) !! length (heap s).

(** The three exported entry points under one name. *)
Inductive EntryPoint :=
| CallVerifyAddress (address : Address)
| CallVerifyEmail (email : string)
| CallVerifyAddressTimeout (address : Address) (timeout : Z) (sel : SelectCase).

Definition enter (v : Verifier) (e : EntryPoint) : M result :=
  match e with
  | CallVerifyAddress address => VerifyAddress v address
  | CallVerifyEmail email => VerifyEmail v email
  | CallVerifyAddressTimeout address timeout sel =>
      VerifyAddressTimeout v address timeout sel
  end.

(** "Whenever the catch-all test is false and [IsDeliverable] fails with an
    error that does not classify as a full inbox, the run returns an error
    and no [Lookup]", for the run of [VerifyAddress] from [s]. *)
Definition surfaces_probe_error
    (v : Verifier) (address : Address) (s : State) : Prop :=
  let o := VerifyAddress v address s in
  ∀ del n addr n' e,
    EvHasCatchAll del n false ∈ evs o →
    EvIsDeliverable del addr n' (Some e) ∈ evs o →
    (∀ le, parseRCPTErr (Some e) = Some le → Message le ≠ ErrFullInbox) →
    ∃ err, val o = Some (None, Some err).

End Embedding.

Arguments val {_ _} _.
Arguments st {_ _} _.
Arguments evs {_ _} _.

(** ** A scripted peer

    One concrete choice of everything verifier.go leaves open, used to run
    the embedding: the remote side answers from a fixed script, and the
    classifiers know a handful of replies.  [parseRCPTErr] answers nil for
    a plain rejection of the recipient, the case the test [le != nil] of
    lines 98 and 117 provides for. *)
Module Scripted.

Record Script := {
  open_reply : option string;   (* [Some text]: the connection fails *)
  catch_all : bool;             (* the answer to the synthetic recipient *)
  rcpt_reply : option string;   (* [Some text]: the recipient is refused *)
}.

#[export] Instance handles : Handles := {|
  World := Script;
  HttpClient := unit;
  Disposabler := unit;
  Deliverabler := nat;
  LookupError := string * string;
  ForeignError := string;
|}.

Definition text_of (e : error) : option string :=
  match e with
  | Some (DynForeign t) => Some t
  | Some (DynLookupError (Some le)) => Some le.2
  | _ => None
  end.

Definition full_inbox : string := "Recipient out of disk space".
Definition no_such_host : string := "Mail server does not exist".

Definition classify_rcpt (e : error) : option (string * string) :=
  match text_of e with
  | None => None
  | Some t =>
      if decide (t = "552 mailbox full") then Some (full_inbox, t)
      else if decide (t = "550 user unknown") then None
      else if decide (t = "no such host") then Some (no_such_host, t)
      else Some (t, t)
  end.

Definition classify_std (e : error) : option (string * string) :=
  match text_of e with
  | None => None
  | Some t =>
      if decide (t = "no such host") then Some (no_such_host, t)
      else Some (t, t)
  end.

(** Everything before the first [@] and everything after it. *)
Fixpoint split_at (s : string) : option (string * string) :=
  match s with
  | EmptyString => None
  | String c rest =>
      if decide (c = "@"%char) then Some (EmptyString, rest)
      else match split_at rest with
           | Some (u, d) => Some (String c u, d)
           | None => None
           end
  end.

Definition parse (email : string) : Address + dyn_error :=
  match split_at email with
  | Some (u, d) => inl {| Username := u; Domain := d; Address' := email |}
  | None => inr (DynForeign "mail: missing @")
  end.

#[export] Instance collaborators : Collaborators := {|
  Message := fst;
  newLookupError := λ m d, Some (m, d);
  ErrTimeout := "The connection to the mail server has timed out";
  ErrNoSuchHost := no_such_host;
  ErrFullInbox := full_inbox;
  ErrUnexpectedResponse := "Unexpected response from deliverabler";
  ErrEmailParseFailure := "Failed to parse email address";
  parseRCPTErr := classify_rcpt;
  parseSTDErr := classify_std;
  ParseAddress := parse;
  IsDisposable := λ _ _ w, (false, w);
  HasGravatar := λ _ _ w, (false, w);
  NewDeliverabler := λ _ _ _ w,
    (match open_reply w with
     | Some t => inr (DynForeign t)
     | None => inl 1%nat
     end, w);
  HasCatchAll := λ _ _ w, (catch_all w, w);
  IsDeliverable := λ _ _ _ w, (DynForeign <$> rcpt_reply w, w);
  Close := λ _ w, w;
|}.

Definition verifier : Verifier :=
  {| client := (); hostname := "probe.example.org";
     sourceAddr := "probe@example.org"; disp := () |}.

Definition alice : Address :=
  {| Username := "alice"; Domain := "example.com";
     Address' := "alice@example.com" |}.

Definition start (w : Script) : State := {| world := w; heap := [] |}.

(** The verdict on [alice] with the given flags. *)
Definition verdict (deliverable fullInbox catchAll : bool) : Lookup :=
  {| XMLName := xml.zero; Lookup_Address := alice;
     Deliverable := deliverable; FullInbox := fullInbox; HostExists := true;
     CatchAll := catchAll; Disposable := false; Gravatar := false |}.

(** The peers of the scenarios of section 8 of the specification. *)
Definition catch_all_peer : Script :=
  {| open_reply := None; catch_all := true; rcpt_reply := None |}.
Definition accepting_peer : Script :=
  {| open_reply := None; catch_all := false; rcpt_reply := None |}.
Definition full_peer : Script :=
  {| open_reply := None; catch_all := false;
     rcpt_reply := Some "552 mailbox full" |}.
Definition rejecting_peer : Script :=
  {| open_reply := None; catch_all := false;
     rcpt_reply := Some "550 user unknown" |}.
Definition greylisting_peer : Script :=
  {| open_reply := None; catch_all := false;
     rcpt_reply := Some "421 try again later" |}.
Definition no_peer : Script :=
  {| open_reply := Some "no such host"; catch_all := false;
     rcpt_reply := None |}.
Definition refusing_peer : Script :=
  {| open_reply := Some "connection refused"; catch_all := false;
     rcpt_reply := None |}.

End Scripted.
Import Scripted.

(** ** The constructor and the callers' view

    [NewVerifier] calls [httpclient.New] and [NewDisposabler], neither of
    which verifier.go defines; both may touch the world.  The second
    argument of [httpclient.New] is always nil here. *)
Class Constructors `{Handles} := {
  Transport : Type;
  httpclient_New : Z → option Transport → World → HttpClient * World;
  NewDisposabler : HttpClient → World → Disposabler * World;
}.

Section Callers.
Context `{Collaborators} `{!Constructors}.

(** [time.Second], in nanoseconds. *)
Definition Second : Z := 1000000000.

(** [func NewVerifier(hostname, sourceAddr string) *Verifier],
    lines 21-24. *)
Definition NewVerifier (hostname sourceAddr : string) (w : World)
    : Verifier * World :=
  let c := httpclient_New (Second * 30) None w in
  let d := NewDisposabler c.1 c.2 in
  ({| client := c.1; hostname := hostname; sourceAddr := sourceAddr;
      disp := d.1 |}, d.2).

(** The address an entry point verifies, when it verifies one at all:
    [VerifyEmail] the one [ParseAddress] yields, [VerifyAddressTimeout]
    its argument provided the channel case of the select fires. *)
Definition entry_address (e : EntryPoint) (address : Address) : Prop :=
  match e with
  | CallVerifyAddress a => a = address
  | CallVerifyEmail email => ParseAddress email = inl address
  | CallVerifyAddressTimeout a _ sel => a = address ∧ sel = RecvCh
  end.

(** A caller that verifies two addresses one after the other. *)
Definition verify_twice (v : Verifier) (a1 a2 : Address)
    : M (result * result) :=
  r1 ← VerifyAddress v a1;
  r2 ← VerifyAddress v a2;
  mret (r1, r2).

End Callers.

(** The scripted peer builds its verifier from nothing. *)
#[export] Instance scripted_constructors : Constructors := {|
  Transport := unit;
  httpclient_New := λ _ _ w, ((), w);
  NewDisposabler := λ _ w, ((), w);
|}.

(** A state of the scripted peer in which earlier verifications have left
    their [Lookup]s on the heap. *)
Definition resume (w : Script) (h : list Lookup) : State :=
  {| world := w; heap := h |}.

(** ** The programs and their closed form *)

Section Runs.
Context `{Collaborators}.

Lemma lookup_fresh (h : list Lookup) (x : Lookup) :
  (h ++ [x]) !! length h = Some x.
Proof. by apply list_lookup_middle. Qed.

Lemma insert_fresh (h : list Lookup) (x y : Lookup) :
  <[length h := y]> (h ++ [x]) = h ++ [y].
Proof.
  rewrite insert_app_r_alt; [|done].
  by rewrite Nat.sub_diag.
Qed.

Ltac unfold_M :=
  unfold defer, call, alloc, load, store, mbind, M_bind, bind, mret, M_ret,
    ret, Out_of_Run.

Ltac heap_simpl :=
  repeat (cbn; rewrite ?lookup_fresh, ?insert_fresh).

Lemma VerifyAddress_probe_run del address h x w :
  VerifyAddress_probe del address (length h) {| world := w; heap := h ++ [x] |}
  = Out_of_Run h (probe_Run del address (length h) x w).
Proof.
  unfold VerifyAddress_probe, probe_Run. unfold_M.
  cbn.
  destruct (HasCatchAll del 3 w) as [[|] w1]; heap_simpl; [done|].
  destruct (CatchAll x); heap_simpl; [done|].
  destruct (IsDeliverable del (Address' address) 3 w1) as [[e|] w2];
    heap_simpl; [|done].
  destruct (parseRCPTErr (Some e)) as [le|]; heap_simpl; [|done].
  destruct (decide (Message le = ErrFullInbox)); heap_simpl; done.
Qed.

Lemma VerifyAddress_run v address s :
  VerifyAddress v address s
  = Out_of_Run (heap s)
      (VerifyAddress_Run v address (length (heap s)) (world s)).
Proof.
  unfold VerifyAddress, VerifyAddress_Run.
  unfold defer, mbind, M_bind, bind at 1 2 3 4.
  unfold call at 1 2 3, alloc. cbn.
  destruct (NewDeliverabler _ _ _ _) as [[del|err] w3]; cbn.
  - rewrite VerifyAddress_probe_run. unfold_M. cbn.
    done.
  - unfold_M.
    destruct (parseRCPTErr (Some err)) as [le|]; heap_simpl; [|done].
    destruct (decide (Message le = ErrNoSuchHost)); heap_simpl; done.
Qed.

(** Case analysis on the answers of the collaborators along a run. *)
Ltac case_run :=
  repeat (cbn;
    match goal with
    | |- context [match (?t).1 with _ => _ end] => destruct t as [[] ?]
    | |- context [match parseRCPTErr ?e with _ => _ end] =>
        destruct (parseRCPTErr e) eqn:?
    | |- context [decide ?P] => destruct (decide P)
    end);
  cbn.

Ltac explore :=
  rewrite ?VerifyAddress_run;
  unfold built_Lookup, returned_Lookup, Out_of_Run, VerifyAddress_Run,
    probe_Run;
  case_run; rewrite ?lookup_fresh.

(** Membership of an event in an explicit list of events. *)
Ltac elem_inv :=
  repeat match goal with
  | H : _ ∈ [] |- _ => by apply elem_of_nil in H
  | H : _ ∈ _ :: _ |- _ => apply elem_of_cons in H as [H|H]; simplify_eq
  end.

(** Every run of [VerifyAddress] returns, and never both a [Lookup] and an
    error, nor neither. *)
Lemma VerifyAddress_returns v address s :
  let o := VerifyAddress v address s in
  (∃ l, val o = Some (Some (length (heap s)), None)
        ∧ returned_Lookup o = Some l ∧ built_Lookup s o = Some l)
  ∨ (∃ err, val o = Some (None, Some err) ∧ returned_Lookup o = None).
Proof. explore; eauto. Qed.

Lemma VerifyAddressTimeout_RecvCh v address timeout s :
  VerifyAddressTimeout v address timeout RecvCh s = VerifyAddress v address s.
Proof.
  pose proof (VerifyAddress_returns v address s) as Hr.
  unfold VerifyAddressTimeout, worker, mbind, M_bind, bind.
  destruct (VerifyAddress v address s) as [r st' es]; cbn in *.
  destruct Hr as [(l & -> & _)|(e & -> & _)]; cbn; by rewrite !app_nil_r.
Qed.

(** C1: every [Lookup] returned without error by [VerifyAddress],
    [VerifyEmail] or [VerifyAddressTimeout] satisfies the three invariants
    of a verdict: [HostExists = false] implies [Deliverable], [CatchAll]
    and [FullInbox] all false; [CatchAll = true] implies
    [Deliverable = true]; [FullInbox = true] implies [Deliverable = false]
    and [CatchAll = false]. *)
Theorem returned_Lookup_invariants v (e : EntryPoint) s l :
  returned_Lookup (enter v e s) = Some l → verdict_invariants l.
Proof.
  assert (Hva : ∀ address,
    returned_Lookup (VerifyAddress v address s) = Some l →
    verdict_invariants l).
  { intros address. unfold verdict_invariants. explore;
      intros; simplify_eq; cbn; naive_solver. }
  destruct e as [address|email|address timeout []]; unfold enter.
  - apply Hva.
  - unfold VerifyEmail. destruct (ParseAddress email); [apply Hva|done].
  - rewrite VerifyAddressTimeout_RecvCh. apply Hva.
  - done.
Qed.

(** C2, as the code has it: in a run of [VerifyAddress] where the catch-all
    test is false and [IsDeliverable] fails with [e], if [parseRCPTErr e]
    is a non-nil [LookupError] whose [Message] is not [ErrFullInbox] the
    run returns that [LookupError] as its error and no [Lookup]; if
    [parseRCPTErr e] is nil the run returns no error and a [Lookup] with
    [Deliverable], [FullInbox] and [CatchAll] all false. *)
Theorem probe_error_classified v address s del n addr n' e :
  let o := VerifyAddress v address s in
  EvHasCatchAll del n false ∈ evs o →
  EvIsDeliverable del addr n' (Some e) ∈ evs o →
  (∀ le, parseRCPTErr (Some e) = Some le → Message le ≠ ErrFullInbox →
     val o = Some (None, Some (DynLookupError (Some le))))
  ∧ (parseRCPTErr (Some e) = None →
     ∃ l, val o = Some (Some (length (heap s)), None)
          ∧ returned_Lookup o = Some l
          ∧ Deliverable l = false ∧ FullInbox l = false
          ∧ CatchAll l = false).
Proof.
  explore; intros Hc Hd; elem_inv; (split; [intros le' ? ?|intros ?]);
    simplify_eq; eauto 10.
Qed.

(** C3: in a run of [VerifyAddress] where the catch-all test is false, if
    [IsDeliverable] succeeds the returned [Lookup] has [Deliverable = true];
    if it fails with an error that [parseRCPTErr] classifies as
    [ErrFullInbox], the run returns a [Lookup] and no error, with
    [FullInbox = true] and [Deliverable = false]. *)
Theorem probe_verdicts v address s del n addr n' r :
  let o := VerifyAddress v address s in
  EvHasCatchAll del n false ∈ evs o →
  EvIsDeliverable del addr n' r ∈ evs o →
  (r = None →
     ∃ l, val o = Some (Some (length (heap s)), None)
          ∧ returned_Lookup o = Some l ∧ Deliverable l = true)
  ∧ (∀ e le, r = Some e → parseRCPTErr (Some e) = Some le →
       Message le = ErrFullInbox →
       ∃ l, val o = Some (Some (length (heap s)), None)
            ∧ returned_Lookup o = Some l
            ∧ FullInbox l = true ∧ Deliverable l = false).
Proof.
  explore; intros Hc Hd; elem_inv; (split; [intros ?|intros e' le' ? ? ?]);
    simplify_eq; eauto 10.
Qed.

(** C4: in a run of [VerifyAddress] where [HasCatchAll] returns true,
    [IsDeliverable] is not called, and the run returns a [Lookup] with
    [CatchAll = true] and [Deliverable = true]. *)
Theorem catch_all_short_circuit v address s del n :
  let o := VerifyAddress v address s in
  EvHasCatchAll del n true ∈ evs o →
  (∀ e, e ∈ evs o → is_IsDeliverable e = false)
  ∧ ∃ l, val o = Some (Some (length (heap s)), None)
         ∧ returned_Lookup o = Some l
         ∧ CatchAll l = true ∧ Deliverable l = true.
Proof.
  explore; intros Hc; elem_inv;
    (split; [intros e' He'; by elem_inv|eauto 10]).
Qed.

(** C5: in a run of [VerifyAddress] where [NewDeliverabler] fails with
    [err], the run returns the error [parseSTDErr err] and no [Lookup],
    neither [HasCatchAll] nor [IsDeliverable] is called, and when
    [parseRCPTErr err] carries the message [ErrNoSuchHost] the [Lookup]
    built by the run has [HostExists = false]. *)
Theorem open_failure v address s dom hn sa err :
  let o := VerifyAddress v address s in
  EvNewDeliverabler dom hn sa (inr err) ∈ evs o →
  val o = Some (None, Some (DynLookupError (parseSTDErr (Some err))))
  ∧ (∀ e, e ∈ evs o → is_HasCatchAll e = false ∧ is_IsDeliverable e = false)
  ∧ (∀ le, parseRCPTErr (Some err) = Some le → Message le = ErrNoSuchHost →
       ∃ l, built_Lookup s o = Some l ∧ HostExists l = false).
Proof.
  explore; intros Ho; elem_inv;
    (split; [done|split; [intros e' He'; by elem_inv|]]);
    intros le' ? ?; simplify_eq; eauto.
Qed.

(** C6: when the goroutine of [VerifyAddressTimeout] delivers before the
    timer, the call returns what [VerifyAddress] returned, the same
    [*Lookup] or the same error; when the timer fires first it returns the
    [ErrTimeout] error and no [Lookup]. *)
Theorem VerifyAddressTimeout_outcomes v address timeout s :
  VerifyAddressTimeout v address timeout RecvCh s = VerifyAddress v address s
  ∧ val (VerifyAddressTimeout v address timeout RecvAfter s)
    = Some (None,
            Some (DynLookupError (newLookupError ErrTimeout ErrTimeout))).
Proof. split; [apply VerifyAddressTimeout_RecvCh|done]. Qed.

(** Every run of [VerifyAddress] opens a probe session or tries to. *)
Lemma VerifyAddress_opens v address s :
  ∃ e, e ∈ evs (VerifyAddress v address s) ∧ is_NewDeliverabler e = true.
Proof.
  rewrite VerifyAddress_run. unfold Out_of_Run, VerifyAddress_Run. cbn.
  destruct (NewDeliverabler _ _ _ _) as [[del|err] w]; cbn; eexists;
    (split; [do 2 apply list_elem_of_further; apply list_elem_of_here|done]).
Qed.

(** C7: when [ParseAddress] fails, [VerifyEmail] returns the
    [ErrEmailParseFailure] error and no [Lookup], leaves the world and the
    heap as they were and calls no collaborator; when [ParseAddress]
    yields an address, [VerifyEmail] is [VerifyAddress] on that address. *)
Theorem VerifyEmail_outcomes v email s :
  match ParseAddress email with
  | inr _ =>
      VerifyEmail v email s
      = {| val := Some (None,
                        Some (DynLookupError
                                (newLookupError ErrEmailParseFailure
                                                ErrEmailParseFailure)));
           st := s; evs := [] |}
  | inl a => VerifyEmail v email s = VerifyAddress v a s
  end.
Proof. unfold VerifyEmail. by destruct (ParseAddress email). Qed.

(** C8: in a run of [VerifyAddress] where [NewDeliverabler] yields a
    session, the run returns, [Close] on that session is the last call of
    the run, and no other call of the run is a [Close]. *)
Theorem session_closed v address s dom hn sa del :
  let o := VerifyAddress v address s in
  EvNewDeliverabler dom hn sa (inl del) ∈ evs o →
  is_Some (val o)
  ∧ ∃ before, evs o = before ++ [EvClose del]
              ∧ ∀ e, e ∈ before → is_Close e = false.
Proof.
  explore; intros Ho; elem_inv; (split; [done|]).
  all: match goal with
       | |- ∃ _, ?x :: ?y :: ?z :: ?rest = _ ∧ _ =>
           exists (removelast (x :: y :: z :: rest))
       end; cbn; (split; [done|]); intros e' He'; by elem_inv.
Qed.

(** C9: every [Lookup] that [VerifyAddress] returns has
    [HostExists = true]. *)
Theorem returned_HostExists v address s l :
  returned_Lookup (VerifyAddress v address s) = Some l → HostExists l = true.
Proof. explore; intros; by simplify_eq. Qed.

(** C10: the goroutine of [VerifyAddressTimeout] leaves exactly one value
    in the channel, that value is a [*Lookup] or an [error], and the type
    switch on it does not take the default arm. *)
Theorem default_arm_unreachable v address s :
  ∃ res, val (worker v address s) = Some [res]
         ∧ ((∃ p, res = Some (DynLookup p)) ∨ (∃ e, res = Some (DynError e)))
         ∧ type_switch res ≠ ArmDefault.
Proof.
  unfold worker, mbind, M_bind, bind.
  destruct (VerifyAddress v address s) as [[[p [e|]]|] st' es] eqn:Hv; cbn.
  - eauto 10.
  - eauto 10.
  - pose proof (VerifyAddress_returns v address s) as Hr.
    rewrite Hv in Hr. cbn in Hr.
    by destruct Hr as [(l & Hl & _)|(e & He & _)].
Qed.

(** ** Further properties of the runs *)

Ltac find_event :=
  repeat first [apply list_elem_of_here | apply list_elem_of_further].

(** An entry point either is a run of [VerifyAddress] on the address it
    stands for, or returns an error at once without touching anything. *)
Lemma enter_cases v e s :
  (∃ address, entry_address e address
              ∧ enter v e s = VerifyAddress v address s)
  ∨ (∃ q, enter v e s
          = {| val := Some (None, Some (DynLookupError q));
               st := s; evs := [] |}).
Proof.
  destruct e as [address|email|address timeout []]; unfold enter.
  - left. by exists address.
  - unfold VerifyEmail, entry_address.
    destruct (ParseAddress email) as [a|err]; [left; by exists a|right; eauto].
  - left. exists address. by rewrite VerifyAddressTimeout_RecvCh.
  - right. unfold VerifyAddressTimeout, ErrTimeout_result. eauto.
Qed.

(** X1: every run of an entry point returns, and returns either a
    [*Lookup] that points at a cell of the heap together with a nil error,
    or a nil [*Lookup] together with an error whose dynamic type is
    [*LookupError]; never both, never neither, never a foreign error. *)
Theorem result_contract v e s :
  let o := enter v e s in
  (∃ p l, val o = Some (Some p, None) ∧ heap (st o) !! p = Some l)
  ∨ (∃ q, val o = Some (None, Some (DynLookupError q))).
Proof.
  destruct (enter_cases v e s) as [(address & _ & ->)|(q & ->)]; cbn;
    [|eauto].
  explore;
    first [ left; eexists _, _; split; [reflexivity|apply lookup_fresh]
          | right; by eexists ].
Qed.

(** X2: an error returned by [VerifyAddress] has one of two origins.
    Either [NewDeliverabler] failed with [e] and the error is
    [parseSTDErr e]; or [IsDeliverable] failed with [e], [parseRCPTErr e]
    is a non-nil [LookupError] whose [Message] is not [ErrFullInbox], and
    the error is that [LookupError]. *)
Theorem error_origin v address s r err :
  let o := VerifyAddress v address s in
  val o = Some (r, Some err) →
  (∃ dom hn sa e,
     EvNewDeliverabler dom hn sa (inr e) ∈ evs o
     ∧ err = DynLookupError (parseSTDErr (Some e)))
  ∨ (∃ del addr n e le,
       EvIsDeliverable del addr n (Some e) ∈ evs o
       ∧ parseRCPTErr (Some e) = Some le
       ∧ Message le ≠ ErrFullInbox
       ∧ err = DynLookupError (Some le)).
Proof.
  explore; intros Hv; simplify_eq;
    first [ right; eexists _, _, _, _, _; split; [by find_event|done]
          | left; eexists _, _, _, _; split; [by find_event|done] ].
Qed.

(** X3: the calls of a run of [VerifyAddress], in order: [IsDisposable] on
    the domain, [HasGravatar] on the address, [NewDeliverabler] with the
    domain and the verifier's [hostname] and [sourceAddr]; nothing more
    when the open fails; otherwise, on the session just opened,
    [HasCatchAll] with 3 retries, then [IsDeliverable] on the full address
    with 3 retries exactly when the catch-all test was false, then
    [Close]. *)
Theorem call_protocol v address s :
  ∃ d g r rest,
    evs (VerifyAddress v address s)
    = [EvIsDisposable (Domain address) d; EvHasGravatar address g;
       EvNewDeliverabler (Domain address) (hostname v) (sourceAddr v) r]
      ++ rest
    ∧ match r with
      | inr _ => rest = []
      | inl del =>
          rest = [EvHasCatchAll del 3 true; EvClose del]
          ∨ ∃ x, rest = [EvHasCatchAll del 3 false;
                         EvIsDeliverable del (Address' address) 3 x;
                         EvClose del]
      end.
Proof.
  explore; eexists _, _, _, _; (split; [reflexivity|]); cbn; eauto.
Qed.

(** X4: a [Lookup] returned by an entry point carries the address the
    entry point stands for (the parsed one for [VerifyEmail]; for
    [VerifyAddressTimeout] the channel case fired), the answer of
    [IsDisposable] on its domain in [Disposable], the answer of
    [HasGravatar] in [Gravatar], and the zero [XMLName]. *)
Theorem returned_fields v e s l :
  let o := enter v e s in
  returned_Lookup o = Some l →
  entry_address e (Lookup_Address l)
  ∧ EvIsDisposable (Domain (Lookup_Address l)) (Disposable l) ∈ evs o
  ∧ EvHasGravatar (Lookup_Address l) (Gravatar l) ∈ evs o
  ∧ XMLName l = xml.zero.
Proof.
  destruct (enter_cases v e s) as [(address & Ha & ->)|(q & ->)]; cbn;
    [|done].
  revert Ha. generalize (entry_address e). intros P.
  explore; intros HP Hl; simplify_eq; cbn;
    (split; [done|split; [find_event|split; [find_event|done]]]).
Qed.

(** X5: in a [Lookup] returned by [VerifyAddress], [CatchAll] is true
    exactly when [HasCatchAll] answered true, and [Deliverable] is true
    exactly when [HasCatchAll] answered true or [IsDeliverable] returned a
    nil error. *)
Theorem Deliverable_iff v address s l :
  let o := VerifyAddress v address s in
  returned_Lookup o = Some l →
  (CatchAll l = true ↔ ∃ del n, EvHasCatchAll del n true ∈ evs o)
  ∧ (Deliverable l = true ↔
       (∃ del n, EvHasCatchAll del n true ∈ evs o)
       ∨ (∃ del addr n, EvIsDeliverable del addr n None ∈ evs o)).
Proof.
  explore; intros Hl; simplify_eq; cbn;
    (split; split;
     [intros ?|intros (? & ? & Hin)
     |intros ?|intros [(? & ? & Hin)|(? & ? & ? & Hin)]]);
    try done; try (by elem_inv);
    first [ eexists _, _; by find_event
          | left; eexists _, _; by find_event
          | right; eexists _, _, _; by find_event ].
Qed.

(** X6: in a [Lookup] returned by [VerifyAddress], [FullInbox] is true
    exactly when [IsDeliverable] failed with an error that [parseRCPTErr]
    maps to a [LookupError] whose [Message] is [ErrFullInbox]. *)
Theorem FullInbox_iff v address s l :
  let o := VerifyAddress v address s in
  returned_Lookup o = Some l →
  (FullInbox l = true ↔
     ∃ del addr n e le,
       EvIsDeliverable del addr n (Some e) ∈ evs o
       ∧ parseRCPTErr (Some e) = Some le
       ∧ Message le = ErrFullInbox).
Proof.
  explore; intros Hl; simplify_eq; cbn;
    (split; [intros ?|intros (? & ? & ? & ? & ? & Hin & Hle & Hm)]);
    try done; try (by elem_inv); try (elem_inv; congruence).
  eexists _, _, _, _, _. split; [find_event|done].
Qed.

(** X7: a run of an entry point leaves every [Lookup] that was on the heap
    before it as it was, and a [*Lookup] it returns does not point at any
    of them. *)
Theorem earlier_Lookups_untouched v e s :
  let o := enter v e s in
  (∀ p l, heap s !! p = Some l → heap (st o) !! p = Some l)
  ∧ (∀ p r, val o = Some (Some p, r) → heap s !! p = None).
Proof.
  destruct (enter_cases v e s) as [(address & _ & ->)|(q & ->)]; cbn;
    [|by split].
  pose proof (VerifyAddress_returns v address s) as Hr. revert Hr.
  rewrite VerifyAddress_run. unfold Out_of_Run. cbn. intros Hr. split.
  - intros p l Hp. by apply lookup_app_l_Some.
  - intros p r Hv.
    destruct Hr as [(l & Hl & _)|(err & Herr & _)]; rewrite Hv in *;
      simplify_eq.
    by apply lookup_ge_None.
Qed.

(** X8: when a caller verifies two addresses one after the other and both
    runs return a [Lookup], the two pointers differ and the first
    [Lookup] still reads, after the second run, as the first run
    returned it. *)
Theorem verify_twice_distinct v a1 a2 s p1 p2 e1 e2 :
  let o := verify_twice v a1 a2 s in
  val o = Some ((Some p1, e1), (Some p2, e2)) →
  p1 ≠ p2
  ∧ is_Some (heap (st o) !! p1)
  ∧ heap (st o) !! p1 = returned_Lookup (VerifyAddress v a1 s).
Proof.
  unfold verify_twice, mbind, M_bind, bind.
  pose proof (VerifyAddress_returns v a1 s) as H1.
  rewrite (VerifyAddress_run v a1 s) in *.
  set (r1 := VerifyAddress_Run v a1 _ _) in *.
  pose proof (VerifyAddress_returns v a2 (st (Out_of_Run (heap s) r1))) as H2.
  rewrite VerifyAddress_run in *.
  set (r2 := VerifyAddress_Run v a2 _ _) in *.
  unfold returned_Lookup, Out_of_Run in *. cbn in *.
  rewrite length_app in *. cbn in *.
  intros Hv. injection Hv as Hr1 Hr2.
  clearbody r2. clearbody r1. rewrite Hr1, Hr2 in *.
  destruct H1 as [(l1 & Hl1 & _)|(err & Herr & _)]; [|congruence].
  destruct H2 as [(l2 & Hl2 & _)|(err & Herr & _)]; [|congruence].
  injection Hl1 as -> _. injection Hl2 as -> _.
  rewrite lookup_app_l by (rewrite length_app; cbn; lia).
  rewrite !lookup_fresh. split; [lia|]. split; [by eexists|done].
Qed.

(** X9: what a run of [VerifyAddress] does depends on the world only, not
    on the [Lookup]s already on the heap: from two states with the same
    world it makes the same calls with the same answers, reaches the
    same world, builds the same [Lookup] and returns the same error. *)
Theorem heap_independence v address s s' :
  world s = world s' →
  let o := VerifyAddress v address s in
  let o' := VerifyAddress v address s' in
  evs o = evs o'
  ∧ world (st o) = world (st o')
  ∧ built_Lookup s o = built_Lookup s' o'
  ∧ (snd <$> val o) = (snd <$> val o').
Proof.
  intros Hw. cbn. rewrite !VerifyAddress_run, Hw.
  unfold built_Lookup, Out_of_Run, VerifyAddress_Run, probe_Run.
  case_run; by rewrite !lookup_fresh.
Qed.

Section Constructor.
Context `{!Constructors}.

(** X10: a verifier built by [NewVerifier hostname sourceAddr] holds an
    HTTP client created with a timeout of 30 seconds and a nil second
    argument, a [Disposabler] built on that same client, and every run of
    [VerifyAddress] with it opens its probe session with exactly that
    [hostname] and [sourceAddr]. *)
Theorem NewVerifier_configuration hostname' sourceAddr' w address s :
  let v := (NewVerifier hostname' sourceAddr' w).1 in
  let c := httpclient_New 30000000000 None w in
  client v = c.1
  ∧ disp v = (NewDisposabler (client v) c.2).1
  ∧ (∃ r, EvNewDeliverabler (Domain address) hostname' sourceAddr' r
          ∈ evs (VerifyAddress v address s))
  ∧ (∀ dom hn sa r,
       EvNewDeliverabler dom hn sa r ∈ evs (VerifyAddress v address s) →
       hn = hostname' ∧ sa = sourceAddr').
Proof.
  unfold NewVerifier.
  set (v := {| client := _; hostname := hostname'; sourceAddr := sourceAddr';
               disp := _ |}).
  cbn. do 2 (split; [done|]).
  replace hostname' with (hostname v) by done.
  replace sourceAddr' with (sourceAddr v) by done.
  clearbody v.
  explore; (split; [eexists; by find_event|]);
    intros dom hn sa r Hin; by elem_inv.
Qed.

End Constructor.

End Runs.

(** ** The scripted peer at work *)

Ltac in_events := vm_compute; repeat constructor.

(** The scenarios of section 8 of the specification. *)
Example catch_all_domain :
  returned_Lookup (VerifyAddress verifier alice (start catch_all_peer))
  = Some (verdict true false true).
Proof. reflexivity. Qed.

Example full_mailbox :
  returned_Lookup (VerifyAddress verifier alice (start full_peer))
  = Some (verdict false true false).
Proof. reflexivity. Qed.

Example clean_accept :
  returned_Lookup (VerifyAddress verifier alice (start accepting_peer))
  = Some (verdict true false false).
Proof. reflexivity. Qed.

Example unknown_host :
  val (VerifyAddress verifier alice (start no_peer))
  = Some (None, Some (DynLookupError (Some (no_such_host, "no such host")))).
Proof. reflexivity. Qed.

Example malformed_address :
  VerifyEmail verifier "not-an-email" (start no_peer)
  = {| val := Some (None,
                    Some (DynLookupError
                            (Some ("Failed to parse email address",
                                   "Failed to parse email address"))));
       st := start no_peer; evs := [] |}.
Proof. reflexivity. Qed.

(** A recipient refused with a reply that [parseRCPTErr] maps to nil: the
    run returns a [Lookup] with [Deliverable = false] and no error. *)
Example plain_rejection :
  VerifyAddress verifier alice (start rejecting_peer)
  = {| val := Some (Some 0%nat, None);
       st := {| world := rejecting_peer; heap := [verdict false false false] |};
       evs := [EvIsDisposable "example.com" false;
               EvHasGravatar alice false;
               EvNewDeliverabler "example.com" "probe.example.org"
                                 "probe@example.org" (inl 1%nat);
               EvHasCatchAll 1%nat 3 false;
               EvIsDeliverable 1%nat "alice@example.com" 3
                               (Some (DynForeign "550 user unknown"));
               EvClose 1%nat] |}.
Proof. reflexivity. Qed.

Lemma returned_Lookup_invariants_witness :
  verdict_invariants (verdict false true false).
Proof.
  apply (returned_Lookup_invariants verifier
           (CallVerifyAddressTimeout alice 5000000000 RecvCh)
           (start full_peer)).
  reflexivity.
Defined.

(** C2 as stated fails on the plainly rejecting peer: the catch-all test is
    false, [IsDeliverable] fails, the failure does not classify as a full
    inbox, and yet the run returns a [Lookup] and no error. *)
Lemma unclassified_error_dropped :
  ¬ surfaces_probe_error verifier alice (start rejecting_peer).
Proof.
  intros Hclaim.
  destruct (Hclaim 1%nat 3 "alice@example.com"%string 3
              (DynForeign (H := handles) "550 user unknown")) as [err Herr].
  - in_events.
  - in_events.
  - intros le Hle. discriminate Hle.
  - discriminate Herr.
Qed.

Lemma probe_error_classified_witness :
  val (VerifyAddress verifier alice (start greylisting_peer))
  = Some (None, Some (DynLookupError
                        (Some ("421 try again later"%string,
                               "421 try again later"%string)))).
Proof.
  apply (probe_error_classified verifier alice (start greylisting_peer)
           1%nat 3 "alice@example.com"%string 3
           (DynForeign (H := handles) "421 try again later")).
  - in_events.
  - in_events.
  - reflexivity.
  - vm_compute. discriminate.
Defined.

Lemma probe_verdicts_witness :
  ∃ l, val (VerifyAddress verifier alice (start full_peer))
       = Some (Some 0%nat, None)
       ∧ returned_Lookup (VerifyAddress verifier alice (start full_peer))
         = Some l
       ∧ FullInbox l = true ∧ Deliverable l = false.
Proof.
  apply (probe_verdicts verifier alice (start full_peer)
           1%nat 3 "alice@example.com"%string 3
           (Some (DynForeign (H := handles) "552 mailbox full")))
    with (e := DynForeign (H := handles) "552 mailbox full")
         (le := (full_inbox, "552 mailbox full"%string)).
  - in_events.
  - in_events.
  - reflexivity.
  - reflexivity.
  - reflexivity.
Defined.

Lemma catch_all_short_circuit_witness :
  (∀ e, e ∈ evs (VerifyAddress verifier alice (start catch_all_peer)) →
        is_IsDeliverable e = false)
  ∧ ∃ l, val (VerifyAddress verifier alice (start catch_all_peer))
         = Some (Some 0%nat, None)
         ∧ returned_Lookup (VerifyAddress verifier alice (start catch_all_peer))
           = Some l
         ∧ CatchAll l = true ∧ Deliverable l = true.
Proof.
  apply (catch_all_short_circuit verifier alice (start catch_all_peer)
           1%nat 3).
  in_events.
Defined.

Lemma open_failure_witness :
  ∃ l, built_Lookup (start no_peer)
         (VerifyAddress verifier alice (start no_peer)) = Some l
       ∧ HostExists l = false.
Proof.
  apply (open_failure verifier alice (start no_peer)
           "example.com"%string "probe.example.org"%string
           "probe@example.org"%string (DynForeign (H := handles) "no such host"))
    with (le := (no_such_host, "no such host"%string)).
  - in_events.
  - reflexivity.
  - reflexivity.
Defined.

Lemma session_closed_witness :
  is_Some (val (VerifyAddress verifier alice (start greylisting_peer)))
  ∧ ∃ before,
      evs (VerifyAddress verifier alice (start greylisting_peer))
      = before ++ [EvClose 1%nat]
      ∧ ∀ e, e ∈ before → is_Close e = false.
Proof.
  apply (session_closed verifier alice (start greylisting_peer)
           "example.com"%string "probe.example.org"%string
           "probe@example.org"%string 1%nat).
  in_events.
Defined.

Lemma returned_HostExists_witness :
  HostExists (verdict true false false) = true.
Proof.
  apply (returned_HostExists verifier alice (start accepting_peer)).
  reflexivity.
Defined.

(** ** The further properties on the scripted peer *)

Lemma error_origin_witness :
  (∃ dom hn sa e,
     EvNewDeliverabler dom hn sa (inr e)
     ∈ evs (VerifyAddress verifier alice (start refusing_peer))
     ∧ DynLookupError (Some ("connection refused"%string,
                             "connection refused"%string))
       = DynLookupError (parseSTDErr (Some e)))
  ∨ (∃ del addr n e le,
       EvIsDeliverable del addr n (Some e)
       ∈ evs (VerifyAddress verifier alice (start refusing_peer))
       ∧ parseRCPTErr (Some e) = Some le
       ∧ Message le ≠ ErrFullInbox
       ∧ DynLookupError (Some ("connection refused"%string,
                               "connection refused"%string))
         = DynLookupError (Some le)).
Proof.
  apply (error_origin verifier alice (start refusing_peer) None).
  reflexivity.
Defined.

Lemma returned_fields_witness :
  entry_address (CallVerifyEmail "alice@example.com")
    (Lookup_Address (verdict false true false))
  ∧ EvIsDisposable (Domain (Lookup_Address (verdict false true false)))
      (Disposable (verdict false true false))
    ∈ evs (enter verifier (CallVerifyEmail "alice@example.com")
             (start full_peer))
  ∧ EvHasGravatar (Lookup_Address (verdict false true false))
      (Gravatar (verdict false true false))
    ∈ evs (enter verifier (CallVerifyEmail "alice@example.com")
             (start full_peer))
  ∧ XMLName (verdict false true false) = xml.zero.
Proof.
  apply (returned_fields verifier (CallVerifyEmail "alice@example.com")
           (start full_peer)).
  reflexivity.
Defined.

Lemma Deliverable_iff_witness :
  (CatchAll (verdict true false false) = true ↔
     ∃ del n, EvHasCatchAll del n true
              ∈ evs (VerifyAddress verifier alice (start accepting_peer)))
  ∧ (Deliverable (verdict true false false) = true ↔
       (∃ del n, EvHasCatchAll del n true
                 ∈ evs (VerifyAddress verifier alice (start accepting_peer)))
       ∨ (∃ del addr n,
            EvIsDeliverable del addr n None
            ∈ evs (VerifyAddress verifier alice (start accepting_peer)))).
Proof.
  apply (Deliverable_iff verifier alice (start accepting_peer)).
  reflexivity.
Defined.

Lemma FullInbox_iff_witness :
  FullInbox (verdict false false false) = true ↔
    ∃ del addr n e le,
      EvIsDeliverable del addr n (Some e)
      ∈ evs (VerifyAddress verifier alice (start rejecting_peer))
      ∧ parseRCPTErr (Some e) = Some le
      ∧ Message le = ErrFullInbox.
Proof.
  apply (FullInbox_iff verifier alice (start rejecting_peer)).
  reflexivity.
Defined.

Lemma earlier_Lookups_untouched_witness :
  heap (st (enter verifier (CallVerifyAddress alice)
              (resume catch_all_peer [verdict false true false]))) !! 0%nat
  = Some (verdict false true false).
Proof.
  apply (earlier_Lookups_untouched verifier (CallVerifyAddress alice)
           (resume catch_all_peer [verdict false true false])).
  reflexivity.
Defined.

Lemma verify_twice_distinct_witness :
  0%nat ≠ 1%nat
  ∧ is_Some (heap (st (verify_twice verifier alice alice
                         (start accepting_peer))) !! 0%nat)
  ∧ heap (st (verify_twice verifier alice alice (start accepting_peer)))
    !! 0%nat
    = returned_Lookup (VerifyAddress verifier alice (start accepting_peer)).
Proof.
  apply (verify_twice_distinct verifier alice alice (start accepting_peer)
           0%nat 1%nat None None).
  reflexivity.
Defined.

Lemma heap_independence_witness :
  evs (VerifyAddress verifier alice (start full_peer))
  = evs (VerifyAddress verifier alice
           (resume full_peer [verdict true false true]))
  ∧ world (st (VerifyAddress verifier alice (start full_peer)))
    = world (st (VerifyAddress verifier alice
                   (resume full_peer [verdict true false true])))
  ∧ built_Lookup (start full_peer)
      (VerifyAddress verifier alice (start full_peer))
    = built_Lookup (resume full_peer [verdict true false true])
        (VerifyAddress verifier alice
           (resume full_peer [verdict true false true]))
  ∧ (snd <$> val (VerifyAddress verifier alice (start full_peer)))
    = (snd <$> val (VerifyAddress verifier alice
                      (resume full_peer [verdict true false true]))).
Proof.
  apply (heap_independence verifier alice (start full_peer)
           (resume full_peer [verdict true false true])).
  reflexivity.
Defined.
